(** * mcp-use example scripts: a shallow embedding

    The repository holds three scripts, [examples/airbnb_use.py],
    [examples/browser_use.py] and [examples/mcp_everything.py].  Each one
    drives an external library (dotenv, langchain_ollama, mcp_use) through a
    handful of calls.  The scripts are embedded as programs of a state and
    error monad: the state is the outside world together with the log of the
    calls made so far, the error is a Python exception.  The outside world
    is a parameter, an instance of the class [Library]; every theorem
    quantifies over it. *)

From Stdlib Require Import Floats.PrimFloat ZArith Ascii String.
From stdpp Require Import gmap strings list.

Set Warnings "-register-all,-inexact-float".

Local Open Scope Z_scope.

(** ** Python values *)

(** An object of the external library (a client, a model handle, an agent,
    a session): only its identity matters to the scripts. *)
Inductive obj : Type := Obj (id : nat).

(** A raised exception: its class and message. *)
Record exn : Type := Exn { exn_class : string; exn_message : string }.

(** The literals a configuration mapping is built from: strings, lists and
    dicts with string keys. *)
Inductive json : Type :=
| JStr (s : string)
| JArr (items : list json)
| JObj (fields : gmap string json).

(** How a call ends. *)
Inductive outcome (A : Type) : Type :=
| Returned (a : A)
| Raised (e : exn).
Arguments Returned {A} a.
Arguments Raised {A} e.

(** What a call handed back, as kept in the log. *)
Inductive value : Type :=
| VNone
| VBool (b : bool)
| VStr (s : string)
| VObj (o : obj)
| VDict (d : gmap string obj).

(** The calls the scripts make, with their arguments as written at the
    call site.  [verbose] is [None] where the keyword is not passed. *)
Inductive call : Type :=
| ImportModule (module : string)
| LoadDotenv
| FromConfigFile (path : string)
| NewMCPClient (config : json)
| NewChatOllama (model base_url : string) (temperature : float)
| NewMCPAgent (llm client : obj) (max_steps : Z) (verbose : option bool)
| AgentRun (agent : obj) (query : string) (max_steps : Z)
| PrintText (text : string)
| GetSessions (client : obj)
| CloseAllSessions (client : obj).

(** One entry of the log: a call with how it ended, or the start of a
    coroutine under [asyncio.run]. *)
Inductive event : Type :=
| Call (c : call) (r : outcome value)
| AsyncioRun (entry : string).

(** The operation of a call, without its arguments. *)
Inductive op : Type :=
| OpImport | OpLoadDotenv | OpFromConfigFile | OpNewMCPClient
| OpNewChatOllama | OpNewMCPAgent | OpAgentRun | OpPrint
| OpGetSessions | OpCloseAllSessions | OpAsyncioRun.

Definition op_of_call (c : call) : op :=
  match c with
  | ImportModule _ => OpImport
  | LoadDotenv => OpLoadDotenv
  | FromConfigFile _ => OpFromConfigFile
  | NewMCPClient _ => OpNewMCPClient
  | NewChatOllama _ _ _ => OpNewChatOllama
  | NewMCPAgent _ _ _ _ => OpNewMCPAgent
  | AgentRun _ _ _ => OpAgentRun
  | PrintText _ => OpPrint
  | GetSessions _ => OpGetSessions
  | CloseAllSessions _ => OpCloseAllSessions
  end.

Definition op_of_event (ev : event) : op :=
  match ev with
  | Call c _ => op_of_call c
  | AsyncioRun _ => OpAsyncioRun
  end.

(** The operations of a log, in order. *)
Definition skeleton (tr : list event) : list op := map op_of_event tr.

Definition map_outcome {A B : Type} (f : A -> B) (r : outcome A) : outcome B :=
  match r with
  | Returned a => Returned (f a)
  | Raised e => Raised e
  end.

(** ** Strings *)

(** The line feed, written [\n] in the scripts. *)
Definition nl : string := String "010"%char EmptyString.

Definition is_nl (c : ascii) : bool := Ascii.eqb c "010"%char.

(** [bool(d)] for a dict: it has at least one entry. *)
Definition truthy (d : gmap string obj) : bool := negb (Nat.eqb (size d) 0).

(** The lines of a text: each ends at a line feed, the last one also at
    the end of the text. *)
Fixpoint lines_from (cur : string) (s : string) : list string :=
  match s with
  | EmptyString => if String.eqb cur "" then [] else [cur]
  | String c s' =>
      if is_nl c then cur :: lines_from "" s'
      else lines_from (cur +:+ String c EmptyString) s'
  end.

Definition lines (s : string) : list string := lines_from "" s.

(** ** posixpath

    [os.path.dirname] and [os.path.join] are the ones of CPython's
    [posixpath]; the separator is the slash. *)
Module posixpath.

Definition is_sep (c : ascii) : bool := Ascii.eqb c "/"%char.

Fixpoint has_sep (p : string) : bool :=
  match p with
  | EmptyString => false
  | String c p' => is_sep c || has_sep p'
  end.

Fixpoint all_sep (p : string) : bool :=
  match p with
  | EmptyString => true
  | String c p' => is_sep c && all_sep p'
  end.

(** [p[:p.rfind("/") + 1]]: the text up to the last slash, with it. *)
Fixpoint head_of (p : string) : string :=
  match p with
  | EmptyString => EmptyString
  | String c p' =>
      if is_sep c || has_sep p' then String c (head_of p') else EmptyString
  end.

(** [p.rstrip("/")]. *)
Fixpoint rstrip_sep (p : string) : string :=
  match p with
  | EmptyString => EmptyString
  | String c p' =>
      match rstrip_sep p' with
      | EmptyString => if is_sep c then EmptyString else String c EmptyString
      | r => String c r
      end
  end.

Definition startswith_sep (p : string) : bool :=
  match p with
  | EmptyString => false
  | String c _ => is_sep c
  end.

Fixpoint endswith_sep (p : string) : bool :=
  match p with
  | EmptyString => false
  | String c EmptyString => is_sep c
  | String _ p' => endswith_sep p'
  end.

(** [head = p[:i]; if head and head != sep*len(head): head = head.rstrip(sep)]. *)
Definition dirname (p : string) : string :=
  let head := head_of p in
  if negb (String.eqb head "") && negb (all_sep head)
  then rstrip_sep head
  else head.

(** [join(a, b)] with one component after [a]. *)
Definition join (a b : string) : string :=
  if startswith_sep b then b
  else if String.eqb a "" || endswith_sep a then a +:+ b
  else a +:+ "/" +:+ b.

End posixpath.

(** ** The outside world *)

(** The external collaborators.  Each operation reads and changes the world
    and either returns or raises.  Nothing is assumed about them. *)
Class Library (W : Type) : Type := {
  lib_import : string -> W -> outcome unit * W;
  lib_load_dotenv : W -> outcome bool * W;
  lib_from_config_file : string -> W -> outcome obj * W;
  lib_MCPClient : json -> W -> outcome obj * W;
  lib_ChatOllama : string -> string -> float -> W -> outcome obj * W;
  lib_MCPAgent : obj -> obj -> Z -> option bool -> W -> outcome obj * W;
  lib_agent_run : obj -> string -> Z -> W -> outcome string * W;
  lib_print : string -> W -> outcome unit * W;
  lib_sessions : obj -> W -> outcome (gmap string obj) * W;
  lib_close_all_sessions : obj -> W -> outcome unit * W;
}.

(** ** The monad of the scripts *)

Record state (W : Type) : Type := State { world : W; trace : list event }.
Arguments State {W} world trace.
Arguments world {W} s.
Arguments trace {W} s.

Definition M (W A : Type) : Type := state W -> outcome A * state W.

Definition ret {W A : Type} (a : A) : M W A := fun s => (Returned a, s).

Definition bind {W A B : Type} (m : M W A) (k : A -> M W B) : M W B :=
  fun s =>
    match m s with
    | (Returned a, s') => k a s'
    | (Raised e, s') => (Raised e, s')
    end.

Notation "'let*' x ':=' m 'in' k" := (bind m (fun x => k))
  (at level 10, x name, m at level 100, k at level 200).

(** [try: body finally: final].  The final block runs after the body
    however the body ended.  When the final block raises, its exception is
    the one that leaves the statement; otherwise the body's outcome does. *)
Definition try_finally {W A : Type} (body : M W A) (final : M W unit) : M W A :=
  fun s =>
    match body s with
    | (r, s1) =>
        match final s1 with
        | (Returned _, s2) => (r, s2)
        | (Raised e, s2) => (Raised e, s2)
        end
    end.

(** An external call: ask the world, append the call and its outcome to
    the log. *)
Definition external {W A : Type} (c : call) (log : A -> value)
    (f : W -> outcome A * W) : M W A :=
  fun s =>
    match f (world s) with
    | (r, w') => (r, State w' (trace s ++ [Call c (map_outcome log r)]))
    end.

(** [asyncio.run(entry())]: the coroutine runs to its end, and its outcome
    is the outcome of the call. *)
Definition asyncio_run {W A : Type} (entry : string) (coro : M W A) : M W A :=
  fun s => coro (State (world s) (trace s ++ [AsyncioRun entry])).

(** Running a program from a world with an empty log. *)
Definition run {W A : Type} (m : M W A) (w : W) : outcome A * state W :=
  m (State w []).

Definition result_of {W A : Type} (m : M W A) (w : W) : outcome A := fst (run m w).
Definition trace_of {W A : Type} (m : M W A) (w : W) : list event := trace (snd (run m w)).

Section Calls.
Context {W : Type} {L : Library W}.

Definition import (module : string) : M W unit :=
  external (ImportModule module) (fun _ => VNone) (lib_import module).

Definition load_dotenv : M W bool :=
  external LoadDotenv VBool lib_load_dotenv.

Definition MCPClient_from_config_file (path : string) : M W obj :=
  external (FromConfigFile path) VObj (lib_from_config_file path).

Definition MCPClient (config : json) : M W obj :=
  external (NewMCPClient config) VObj (lib_MCPClient config).

Definition ChatOllama (model base_url : string) (temperature : float) : M W obj :=
  external (NewChatOllama model base_url temperature) VObj
    (lib_ChatOllama model base_url temperature).

Definition MCPAgent (llm client : obj) (max_steps : Z) (verbose : option bool) : M W obj :=
  external (NewMCPAgent llm client max_steps verbose) VObj
    (lib_MCPAgent llm client max_steps verbose).

Definition agent_run (agent : obj) (query : string) (max_steps : Z) : M W string :=
  external (AgentRun agent query max_steps) VStr (lib_agent_run agent query max_steps).

Definition print (text : string) : M W unit :=
  external (PrintText text) (fun _ => VNone) (lib_print text).

Definition client_sessions (client : obj) : M W (gmap string obj) :=
  external (GetSessions client) VDict (lib_sessions client).

Definition client_close_all_sessions (client : obj) : M W unit :=
  external (CloseAllSessions client) (fun _ => VNone) (lib_close_all_sessions client).
End Calls.

(** ** examples/airbnb_use.py *)
Module airbnb_use.
Section Script.
Context {W : Type} {L : Library W}.

(** The task string: three adjacent literals, joined by the parser.  A
    string is held as its UTF-8 bytes. *)
Definition query : string :=
  "Find me a nice place to stay in Göteborg, Sweden for 2 adults "
  +:+ "for a week in August 2025. I prefer places with a pool and "
  +:+ "good reviews. Show me the top 3 options.".

(** The body of the [try] statement. *)
Definition guarded (agent : obj) : M W unit :=
  let* result := agent_run agent query 30 in
  print (nl +:+ "Result: " +:+ result).

(** The body of the [finally] clause. *)
Definition cleanup (client : obj) : M W unit :=
  let* sessions := client_sessions client in
  if truthy sessions then client_close_all_sessions client else ret tt.

Definition run_airbnb_example (file__ : string) : M W unit :=
  let* _ := load_dotenv in
  let* client :=
    MCPClient_from_config_file
      (posixpath.join (posixpath.dirname file__) "airbnb_mcp.json") in
  let* llm := ChatOllama "qwen3:30b" "http://localhost:11434" (- 0.1)%float in
  let* agent := MCPAgent llm client 10 (Some true) in
  try_finally (guarded agent) (cleanup client).

(** The module's top level, run with the module's [__name__] and
    [__file__]. *)
Definition module (name__ file__ : string) : M W unit :=
  let* _ := import "asyncio" in
  let* _ := import "os" in
  let* _ := import "dotenv" in
  let* _ := import "langchain_ollama" in
  let* _ := import "mcp_use" in
  if String.eqb name__ "__main__"
  then asyncio_run "run_airbnb_example" (run_airbnb_example file__)
  else ret tt.
End Script.
End airbnb_use.

(** ** examples/browser_use.py *)
Module browser_use.
Section Script.
Context {W : Type} {L : Library W}.

(** The task string: a triple-quoted literal, with its line feeds and
    indentation. *)
Definition query : string :=
  nl
  +:+ "        Navigate to https://github.com/mcp-use/mcp-use, give a star to the project and write" +:+ nl
  +:+ "        a summary of the project." +:+ nl
  +:+ "        ".

Definition main (file__ : string) : M W unit :=
  let* _ := load_dotenv in
  let* client :=
    MCPClient_from_config_file
      (posixpath.join (posixpath.dirname file__) "browser_mcp.json") in
  let* llm := ChatOllama "qwen3:30b" "http://localhost:11434" (- 0.1)%float in
  let* agent := MCPAgent llm client 10 None in
  let* result := agent_run agent query 30 in
  print (nl +:+ "Result: " +:+ result).

Definition module (name__ file__ : string) : M W unit :=
  let* _ := import "asyncio" in
  let* _ := import "os" in
  let* _ := import "dotenv" in
  let* _ := import "langchain_ollama" in
  let* _ := import "mcp_use" in
  if String.eqb name__ "__main__"
  then asyncio_run "main" (main file__)
  else ret tt.
End Script.
End browser_use.

(** ** examples/mcp_everything.py *)
Module mcp_everything.

(** The launch spec of the one server. *)
Definition everything_spec : gmap string json :=
  <["command" := JStr "npx"]>
    (<["args" := JArr [JStr "-y"; JStr "@modelcontextprotocol/server-everything"]]> ∅).

(** The module-level dict [everything_server]. *)
Definition everything_server : json :=
  JObj (<["mcpServers" := JObj (<["everything" := JObj everything_spec]> ∅)]> ∅).

Section Script.
Context {W : Type} {L : Library W}.

Definition query : string :=
  nl
  +:+ "        Hello, you are a tester can you please answer the follwing questions:" +:+ nl
  +:+ "        - Which resources do you have access to?" +:+ nl
  +:+ "        - Which prompts do you have access to?" +:+ nl
  +:+ "        - Which tools do you have access to?" +:+ nl
  +:+ "        ".

Definition main : M W unit :=
  let* _ := load_dotenv in
  let* client := MCPClient everything_server in
  let* llm := ChatOllama "qwen3:30b" "http://localhost:11434" (- 0.1)%float in
  let* agent := MCPAgent llm client 30 None in
  let* result := agent_run agent query 30 in
  print (nl +:+ "Result: " +:+ result).

Definition module (name__ : string) : M W unit :=
  let* _ := import "asyncio" in
  let* _ := import "dotenv" in
  let* _ := import "langchain_ollama" in
  let* _ := import "mcp_use" in
  if String.eqb name__ "__main__"
  then asyncio_run "main" main
  else ret tt.
End Script.
End mcp_everything.

(** ** The three scripts together *)

Inductive script : Type := Airbnb | Browser | Everything.

Section Scripts.
Context {W : Type} {L : Library W}.

(** The coroutine a script hands to [asyncio.run]. *)
Definition entry_point (s : script) (file__ : string) : M W unit :=
  match s with
  | Airbnb => airbnb_use.run_airbnb_example file__
  | Browser => browser_use.main file__
  | Everything => mcp_everything.main
  end.

(** The top level of a script's module. *)
Definition module_of (s : script) (name__ file__ : string) : M W unit :=
  match s with
  | Airbnb => airbnb_use.module name__ file__
  | Browser => browser_use.module name__ file__
  | Everything => mcp_everything.module name__
  end.
End Scripts.

(** The task string written in a script. *)
Definition task_of (s : script) : string :=
  match s with
  | Airbnb => airbnb_use.query
  | Browser => browser_use.query
  | Everything => mcp_everything.query
  end.

(** The name of the configuration file a script reads, when it reads one. *)
Definition config_name (s : script) : option string :=
  match s with
  | Airbnb => Some "airbnb_mcp.json"
  | Browser => Some "browser_mcp.json"
  | Everything => None
  end.


(** ** Reading a log *)

(** The texts handed to [print], in order. *)
Fixpoint printed (tr : list event) : list string :=
  match tr with
  | [] => []
  | Call (PrintText text) _ :: tr' => text :: printed tr'
  | _ :: tr' => printed tr'
  end.

(** What the [print] calls that returned wrote to standard output: each
    one its text and a line feed. *)
Fixpoint stdout (tr : list event) : string :=
  match tr with
  | [] => ""
  | Call (PrintText text) (Returned _) :: tr' => text +:+ nl +:+ stdout tr'
  | _ :: tr' => stdout tr'
  end.

(** No call of the log raised. *)
Definition returned (ev : event) : bool :=
  match ev with
  | Call _ (Raised _) => false
  | _ => true
  end.

Definition all_returned (tr : list event) : bool := forallb returned tr.

(** Every call of the [finally] block that is in the log returned. *)
Definition cleanup_returned (tr : list event) : Prop :=
  forall c e, In (Call c (Raised e)) tr ->
    op_of_call c <> OpGetSessions /\ op_of_call c <> OpCloseAllSessions.

(** A program has no conditional logic when the runs in which every call
    returns all make the same operations in the same order. *)
Definition straight_line (p : forall W : Type, Library W -> M W unit) : Prop :=
  exists ops : list op,
    forall (W : Type) (L : Library W) (w : W),
      all_returned (trace_of (p W L) w) = true ->
      skeleton (trace_of (p W L) w) = ops.

(** ** Scripted worlds

    A world used to run the scripts on concrete inputs.  Its state is the
    number of objects built so far, which names the next one.  A scenario
    fixes how the agent's run, the sessions attribute and the closing of the
    sessions end; every other call returns. *)
Record scenario : Type := Scenario {
  sc_run : outcome string;
  sc_sessions : outcome (gmap string obj);
  sc_close : outcome unit;
}.

Definition fresh (w : nat) : outcome obj * nat := (Returned (Obj w), S w).

Definition scripted (sc : scenario) : Library nat := {|
  lib_import := fun _ w => (Returned tt, w);
  lib_load_dotenv := fun w => (Returned true, w);
  lib_from_config_file := fun _ w => fresh w;
  lib_MCPClient := fun _ w => fresh w;
  lib_ChatOllama := fun _ _ _ w => fresh w;
  lib_MCPAgent := fun _ _ _ _ w => fresh w;
  lib_agent_run := fun _ _ _ w => (sc_run sc, w);
  lib_print := fun _ w => (Returned tt, w);
  lib_sessions := fun _ w => (sc_sessions sc, w);
  lib_close_all_sessions := fun _ w => (sc_close sc, w);
|}.

Definition ConnectionError : exn := Exn "ConnectionError" "model endpoint unreachable".
Definition RuntimeError : exn := Exn "RuntimeError" "session did not shut down".

Definition one_session : gmap string obj := <["airbnb" := Obj 7]> ∅.

(** The agent answers, one session is open, closing succeeds. *)
Definition sc_success : scenario :=
  Scenario (Returned "3 places found") (Returned one_session) (Returned tt).

(** The agent answers and no session is open. *)
Definition sc_no_session : scenario :=
  Scenario (Returned "3 places found") (Returned ∅) (Returned tt).

(** The agent fails, one session is open, closing succeeds. *)
Definition sc_agent_fails : scenario :=
  Scenario (Raised ConnectionError) (Returned one_session) (Returned tt).

(** The agent fails, one session is open, closing fails too. *)
Definition sc_both_fail : scenario :=
  Scenario (Raised ConnectionError) (Returned one_session) (Raised RuntimeError).

(** The agent's answer has two lines. *)
Definition sc_two_lines : scenario :=
  Scenario (Returned ("Option 1" +:+ nl +:+ "Option 2")) (Returned ∅) (Returned tt).

(** The log of the Airbnb script up to the agent's run, in a scripted
    world started at 0. *)
Definition airbnb_setup_log : list event :=
  [ Call LoadDotenv (Returned (VBool true));
    Call (FromConfigFile "/srv/examples/airbnb_mcp.json") (Returned (VObj (Obj 0)));
    Call (NewChatOllama "qwen3:30b" "http://localhost:11434" (- 0.1)%float)
      (Returned (VObj (Obj 1)));
    Call (NewMCPAgent (Obj 1) (Obj 0) 10 (Some true)) (Returned (VObj (Obj 2))) ].

(** The log of a cleanup that finds one session and closes it. *)
Definition airbnb_cleanup_log : list event :=
  [ Call (GetSessions (Obj 0)) (Returned (VDict one_session));
    Call (CloseAllSessions (Obj 0)) (Returned VNone) ].

(** ** Worlds in which one operation fails *)

#[global] Instance op_eq_dec : EqDecision op.
Proof. solve_decision. Defined.

(** The outcome of an operation in a world where the operation [bad]
    raises [e] and every other one returns [a]. *)
Definition unless_bad {A : Type} (bad : op) (e : exn) (o : op) (a : A) : outcome A :=
  if bool_decide (o = bad) then Raised e else Returned a.

(** A world as [scripted sc_success], but for the operation [bad], which
    raises [e]. *)
Definition failing (bad : op) (e : exn) : Library nat := {|
  lib_import := fun _ w => (unless_bad bad e OpImport tt, w);
  lib_load_dotenv := fun w => (unless_bad bad e OpLoadDotenv true, w);
  lib_from_config_file := fun _ w => (unless_bad bad e OpFromConfigFile (Obj w), S w);
  lib_MCPClient := fun _ w => (unless_bad bad e OpNewMCPClient (Obj w), S w);
  lib_ChatOllama := fun _ _ _ w => (unless_bad bad e OpNewChatOllama (Obj w), S w);
  lib_MCPAgent := fun _ _ _ _ w => (unless_bad bad e OpNewMCPAgent (Obj w), S w);
  lib_agent_run := fun _ _ _ w => (unless_bad bad e OpAgentRun "3 places found", w);
  lib_print := fun _ w => (unless_bad bad e OpPrint tt, w);
  lib_sessions := fun _ w => (unless_bad bad e OpGetSessions one_session, w);
  lib_close_all_sessions := fun _ w => (unless_bad bad e OpCloseAllSessions tt, w);
|}.

(** A world as [scripted sc_success] in which no [.env] file is found:
    [load_dotenv] returns [False]. *)
Definition without_dotenv : Library nat := {|
  lib_import := fun _ w => (Returned tt, w);
  lib_load_dotenv := fun w => (Returned false, w);
  lib_from_config_file := fun _ w => fresh w;
  lib_MCPClient := fun _ w => fresh w;
  lib_ChatOllama := fun _ _ _ w => fresh w;
  lib_MCPAgent := fun _ _ _ _ w => fresh w;
  lib_agent_run := fun _ _ _ w => (Returned "3 places found", w);
  lib_print := fun _ w => (Returned tt, w);
  lib_sessions := fun _ w => (Returned one_session, w);
  lib_close_all_sessions := fun _ w => (Returned tt, w);
|}.

Definition ImportError : exn := Exn "ImportError" "No module named 'mcp_use'".
Definition BrokenPipeError : exn := Exn "BrokenPipeError" "Broken pipe".
Definition ValidationError : exn := Exn "ValidationError" "1 validation error for MCPAgent".

(** ** Kinds of operations *)

(** The operations of the [finally] block of the Airbnb script. *)
Definition is_cleanup_op (o : op) : bool :=
  match o with
  | OpGetSessions | OpCloseAllSessions => true
  | _ => false
  end.

(** The operations the Airbnb script makes before its [try] statement. *)
Definition is_setup_op (o : op) : bool :=
  match o with
  | OpLoadDotenv | OpFromConfigFile | OpNewChatOllama | OpNewMCPAgent => true
  | _ => false
  end.

(** The operations that build a client. *)
Definition is_client_op (o : op) : bool :=
  match o with
  | OpFromConfigFile | OpNewMCPClient => true
  | _ => false
  end.

(** The operations written in a script's entry point, in the order of the
    source text. *)
Definition source_ops (s : script) : list op :=
  match s with
  | Airbnb =>
      [OpLoadDotenv; OpFromConfigFile; OpNewChatOllama; OpNewMCPAgent;
       OpAgentRun; OpPrint; OpGetSessions; OpCloseAllSessions]
  | Browser =>
      [OpLoadDotenv; OpFromConfigFile; OpNewChatOllama; OpNewMCPAgent;
       OpAgentRun; OpPrint]
  | Everything =>
      [OpLoadDotenv; OpNewMCPClient; OpNewChatOllama; OpNewMCPAgent;
       OpAgentRun; OpPrint]
  end.



(** The imports of the Airbnb module, as a scripted world logs them. *)
Definition airbnb_import_log : list event :=
  [ Call (ImportModule "asyncio") (Returned VNone);
    Call (ImportModule "os") (Returned VNone);
    Call (ImportModule "dotenv") (Returned VNone);
    Call (ImportModule "langchain_ollama") (Returned VNone);
    Call (ImportModule "mcp_use") (Returned VNone) ].

(** ** Symbolic execution of a script *)

Ltac unfold_scripts :=
  unfold trace_of, result_of, run,
    airbnb_use.module, airbnb_use.run_airbnb_example, airbnb_use.guarded,
    airbnb_use.cleanup, browser_use.module, browser_use.main,
    mcp_everything.module, mcp_everything.main,
    asyncio_run, try_finally, bind, ret,
    import, load_dotenv, MCPClient_from_config_file, MCPClient, ChatOllama,
    MCPAgent, agent_run, print, client_sessions, client_close_all_sessions,
    external in *.

(** One case analysis on the outcome of a call or on a test. *)
Ltac scrutinee x :=
  lazymatch x with
  | context [match _ with _ => _ end] => fail
  | _ =>
      let T := type of x in
      lazymatch eval hnf in T with
      | prod _ _ => destruct x eqn:?
      | outcome _ => destruct x eqn:?
      | bool => destruct x eqn:?
      end
  end.

Ltac case_step :=
  match goal with
  | H : context [match ?x with _ => _ end] |- _ => scrutinee x
  | |- context [match ?x with _ => _ end] => scrutinee x
  end.

Ltac exec := unfold_scripts; simpl in *; repeat (case_step; simpl in * ).

Arguments posixpath.join : simpl never.
Arguments posixpath.dirname : simpl never.
Arguments String.append : simpl never.
Arguments truthy : simpl never.

(** Membership in a log that is known entry by entry. *)
Ltac in_log := solve [ simpl; repeat first [ left; reflexivity | right ] ].

(** Membership in the log of a run in a scripted world. *)
Ltac in_run :=
  solve [ vm_compute; repeat first [ left; reflexivity | right ] ].

(** The entries a member of a known log can be. *)
Ltac log_cases H :=
  simpl in H;
  repeat match type of H with
         | _ \/ _ => destruct H as [H|H]
         | False => contradiction
         end.

(** Reading a position of a log that is known entry by entry. *)
Ltac split_at H pre :=
  repeat (destruct pre as [|? pre]; simpl in H;
          [ try discriminate H; try (injection H as ? ?; subst)
          | try discriminate H; injection H as ? H; subst ]).



(** * The Airbnb script: teardown *)

(** C1.  In the Airbnb script, however the awaited [agent.run] call ends
    (it returns or it raises), the [finally] block is entered afterwards:
    its first step, the reading of [client.sessions], is in the log after
    the agent's run. *)
Theorem airbnb_cleanup_reached W (L : Library W) (w : W) file__ pre post agent q n r :
  trace_of (airbnb_use.run_airbnb_example file__) w
    = pre ++ Call (AgentRun agent q n) r :: post ->
  exists client r', In (Call (GetSessions client) r') post.
Proof.
  intros Htr. exec; split_at Htr pre; eexists _, _; in_log.
Qed.

Lemma airbnb_cleanup_reached_witness :
  trace_of (airbnb_use.run_airbnb_example (L := scripted sc_agent_fails)
              "/srv/examples/airbnb_use.py") 0%nat
    = airbnb_setup_log
      ++ Call (AgentRun (Obj 2) airbnb_use.query 30) (Raised ConnectionError)
      :: airbnb_cleanup_log
  /\ exists client r', In (Call (GetSessions client) r') airbnb_cleanup_log.
Proof.
  split; [reflexivity|].
  apply (airbnb_cleanup_reached nat (scripted sc_agent_fails) 0%nat
           "/srv/examples/airbnb_use.py" airbnb_setup_log airbnb_cleanup_log
           (Obj 2) airbnb_use.query 30 (Raised ConnectionError)).
  reflexivity.
Defined.

(** The same after an agent's run that returned: the text is printed, then
    the [finally] block runs. *)
Example airbnb_cleanup_after_success :
  trace_of (airbnb_use.run_airbnb_example (L := scripted sc_success)
              "/srv/examples/airbnb_use.py") 0%nat
    = airbnb_setup_log
      ++ Call (AgentRun (Obj 2) airbnb_use.query 30) (Returned (VStr "3 places found"))
      :: Call (PrintText (nl +:+ "Result: 3 places found")) (Returned VNone)
      :: airbnb_cleanup_log.
Proof. reflexivity. Qed.


(** With one session open the script closes the sessions of its client;
    with none open it makes no close call. *)
Example airbnb_closes_open_session :
  In (Call (CloseAllSessions (Obj 0)) (Returned VNone))
     (trace_of (airbnb_use.run_airbnb_example (L := scripted sc_success)
                  "/srv/examples/airbnb_use.py") 0%nat).
Proof. in_run. Qed.

Example airbnb_nothing_to_close :
  skeleton (trace_of (airbnb_use.run_airbnb_example (L := scripted sc_no_session)
                        "/srv/examples/airbnb_use.py") 0%nat)
    = [OpLoadDotenv; OpFromConfigFile; OpNewChatOllama; OpNewMCPAgent;
       OpAgentRun; OpPrint; OpGetSessions].
Proof. reflexivity. Qed.

(** C3, as the code has it.  In the Airbnb script, when the agent's run
    raises and the [finally] block itself ends without raising, the
    exception of the agent's run is the one that leaves
    [run_airbnb_example], and the [finally] block ran before it did. *)
Theorem airbnb_agent_failure_propagates W (L : Library W) (w : W) file__
    pre post agent q n e :
  trace_of (airbnb_use.run_airbnb_example file__) w
    = pre ++ Call (AgentRun agent q n) (Raised e) :: post ->
  cleanup_returned post ->
  result_of (airbnb_use.run_airbnb_example file__) w = Raised e
  /\ exists client r', In (Call (GetSessions client) r') post.
Proof.
  intros Htr Hcl. unfold cleanup_returned in Hcl.
  exec; split_at Htr pre; (split; [| eexists _, _; in_log]).
  all: try reflexivity.
  all: exfalso.
  all: match goal with
       | H : forall c e, _ -> _, _ : lib_close_all_sessions ?c _ = (Raised ?e, _) |- _ =>
           destruct (H (CloseAllSessions c) e ltac:(in_log)) as [_ Hn];
           exact (Hn eq_refl)
       | H : forall c e, _ -> _, _ : lib_sessions ?c _ = (Raised ?e, _) |- _ =>
           destruct (H (GetSessions c) e ltac:(in_log)) as [Hn _];
           exact (Hn eq_refl)
       end.
Qed.

Lemma airbnb_agent_failure_propagates_witness :
  (trace_of (airbnb_use.run_airbnb_example (L := scripted sc_agent_fails)
               "/srv/examples/airbnb_use.py") 0%nat
     = airbnb_setup_log
       ++ Call (AgentRun (Obj 2) airbnb_use.query 30) (Raised ConnectionError)
       :: airbnb_cleanup_log
   /\ cleanup_returned airbnb_cleanup_log)
  /\ (result_of (airbnb_use.run_airbnb_example (L := scripted sc_agent_fails)
                  "/srv/examples/airbnb_use.py") 0%nat = Raised ConnectionError
      /\ exists client r', In (Call (GetSessions client) r') airbnb_cleanup_log).
Proof.
  assert (Hcl : cleanup_returned airbnb_cleanup_log).
  { intros c e [Hin|[Hin|[]]]; discriminate Hin. }
  split; [split; [reflexivity | exact Hcl] |].
  apply (airbnb_agent_failure_propagates nat (scripted sc_agent_fails) 0%nat
           "/srv/examples/airbnb_use.py" airbnb_setup_log airbnb_cleanup_log
           (Obj 2) airbnb_use.query 30 ConnectionError);
    [reflexivity | exact Hcl].
Defined.

(** C3, as stated, fails: the agent's run raises [ConnectionError], one
    session is open and closing it raises [RuntimeError]; the exception
    that leaves [run_airbnb_example] is the [RuntimeError] of the
    [finally] block, not the agent's. *)
Lemma airbnb_cleanup_failure_replaces_agent_failure :
  In (Call (AgentRun (Obj 2) airbnb_use.query 30) (Raised ConnectionError))
     (trace_of (airbnb_use.run_airbnb_example (L := scripted sc_both_fail)
                  "/srv/examples/airbnb_use.py") 0%nat)
  /\ In (Call (CloseAllSessions (Obj 0)) (Raised RuntimeError))
       (trace_of (airbnb_use.run_airbnb_example (L := scripted sc_both_fail)
                    "/srv/examples/airbnb_use.py") 0%nat)
  /\ result_of (airbnb_use.run_airbnb_example (L := scripted sc_both_fail)
                  "/srv/examples/airbnb_use.py") 0%nat = Raised RuntimeError
  /\ Raised (A := unit) RuntimeError <> Raised ConnectionError.
Proof.
  split; [vm_compute; tauto|].
  split; [vm_compute; tauto|].
  split; [reflexivity | discriminate].
Qed.

(** * The configuration of the "everything" script *)

(** C4.  The configuration mapping the "everything" script hands to the
    client constructor is [everything_server]: under ["mcpServers"] it has
    exactly one entry, named ["everything"], whose command is ["npx"] and
    whose argument list is ["-y"], ["@modelcontextprotocol/server-everything"]. *)
Theorem everything_config_single_server W (L : Library W) (w : W) cfg r :
  In (Call (NewMCPClient cfg) r) (trace_of mcp_everything.main w) ->
  cfg = mcp_everything.everything_server
  /\ exists top servers spec,
       cfg = JObj top
       /\ top !! "mcpServers" = Some (JObj servers)
       /\ size servers = 1%nat
       /\ servers !! "everything" = Some (JObj spec)
       /\ spec !! "command" = Some (JStr "npx")
       /\ spec !! "args"
            = Some (JArr [JStr "-y"; JStr "@modelcontextprotocol/server-everything"]).
Proof.
  intros Hin.
  assert (Hcfg : cfg = mcp_everything.everything_server).
  { exec; log_cases Hin; try discriminate Hin; injection Hin as <- _; reflexivity. }
  split; [exact Hcfg|]. subst cfg.
  eexists _, _, _. split; [reflexivity|].
  repeat split; reflexivity.
Qed.

Lemma everything_config_single_server_witness :
  In (Call (NewMCPClient mcp_everything.everything_server) (Returned (VObj (Obj 0))))
     (trace_of (mcp_everything.main (L := scripted sc_success)) 0%nat)
  /\ (mcp_everything.everything_server = mcp_everything.everything_server
      /\ exists top servers spec,
           mcp_everything.everything_server = JObj top
           /\ top !! "mcpServers" = Some (JObj servers)
           /\ size servers = 1%nat
           /\ servers !! "everything" = Some (JObj spec)
           /\ spec !! "command" = Some (JStr "npx")
           /\ spec !! "args"
                = Some (JArr [JStr "-y"; JStr "@modelcontextprotocol/server-everything"])).
Proof.
  assert (Hin : In (Call (NewMCPClient mcp_everything.everything_server)
                      (Returned (VObj (Obj 0))))
                   (trace_of (mcp_everything.main (L := scripted sc_success)) 0%nat)).
  { in_run. }
  split; [exact Hin|].
  exact (everything_config_single_server nat (scripted sc_success) 0%nat _ _ Hin).
Defined.

(** * The main-program guard *)

(** C5.  For each of the three scripts, [asyncio.run] is called on the
    entry point only when the module runs with [__name__] equal to
    ["__main__"]: a log of the module's top level that holds the start of
    the coroutine is the log of a run as the main program. *)
Theorem entry_point_only_as_main W (L : Library W) (w : W) s name__ file__ entry :
  In (AsyncioRun entry) (trace_of (module_of s name__ file__) w) ->
  name__ = "__main__".
Proof.
  intros Hin.
  destruct (String.eqb name__ "__main__") eqn:Hname;
    [by apply String.eqb_eq in Hname|].
  exfalso. destruct s; unfold module_of in Hin; unfold_scripts;
    rewrite Hname in Hin; exec; log_cases Hin; discriminate Hin.
Qed.

Lemma entry_point_only_as_main_witness :
  In (AsyncioRun "main")
     (trace_of (module_of (L := scripted sc_success) Browser "__main__"
                  "/srv/examples/browser_use.py") 0%nat)
  /\ "__main__" = "__main__".
Proof.
  assert (Hin : In (AsyncioRun "main")
                   (trace_of (module_of (L := scripted sc_success) Browser "__main__"
                                "/srv/examples/browser_use.py") 0%nat)).
  { in_run. }
  split; [exact Hin|].
  exact (entry_point_only_as_main nat (scripted sc_success) 0%nat Browser
           "__main__" "/srv/examples/browser_use.py" "main" Hin).
Defined.

(** On import, that is with any other [__name__], the top level of a
    module makes its imports and nothing else. *)
Lemma import_makes_imports_only W (L : Library W) (w : W) s name__ file__ :
  name__ <> "__main__" ->
  Forall (fun ev => op_of_event ev = OpImport)
    (trace_of (module_of s name__ file__) w).
Proof.
  intros Hne. apply String.eqb_neq in Hne.
  destruct s; unfold module_of; unfold_scripts; rewrite Hne; exec;
    repeat constructor.
Qed.

(** * What the scripts hand to the library *)

(** C8.  The task string reaches [agent.run] as the literal written in the
    script, and the configuration mapping reaches the client constructor
    as the dict [everything_server] built at module level: every such call
    in the log of a script's entry point carries these values. *)
Theorem arguments_passed_unchanged W (L : Library W) (w : W) s file__ ev :
  In ev (trace_of (entry_point s file__) w) ->
  match ev with
  | Call (AgentRun _ q _) _ => q = task_of s
  | Call (NewMCPClient cfg) _ =>
      s = Everything /\ cfg = mcp_everything.everything_server
  | _ => True
  end.
Proof.
  intros Hin.
  destruct s; unfold entry_point in Hin; exec; log_cases Hin; subst ev;
    first [ exact I | reflexivity | split; reflexivity ].
Qed.

Lemma arguments_passed_unchanged_witness :
  In (Call (AgentRun (Obj 2) mcp_everything.query 30) (Returned (VStr "3 places found")))
     (trace_of (entry_point (L := scripted sc_success) Everything "") 0%nat)
  /\ mcp_everything.query = task_of Everything.
Proof.
  assert (Hin : In (Call (AgentRun (Obj 2) mcp_everything.query 30)
                      (Returned (VStr "3 places found")))
                   (trace_of (entry_point (L := scripted sc_success) Everything "")
                      0%nat)).
  { in_run. }
  split; [exact Hin|].
  exact (arguments_passed_unchanged nat (scripted sc_success) 0%nat Everything ""
           _ Hin).
Defined.

(** * The language-model handle *)



(** * Standard output *)

(** C6, as the code has it.  A run of a script that ends normally makes
    exactly one [print] call.  Its text is a line feed, then ["Result: "]
    and the text the agent's run returned; standard output receives it
    followed by a line feed. *)
Theorem one_print_per_normal_run W (L : Library W) (w : W) s file__ :
  result_of (entry_point s file__) w = Returned tt ->
  exists agent n r,
    In (Call (AgentRun agent (task_of s) n) (Returned (VStr r)))
       (trace_of (entry_point s file__) w)
    /\ printed (trace_of (entry_point s file__) w) = [nl +:+ "Result: " +:+ r]
    /\ stdout (trace_of (entry_point s file__) w) = (nl +:+ "Result: " +:+ r) +:+ nl.
Proof.
  intros Hres.
  destruct s; unfold entry_point in *; exec; try discriminate; subst;
    simpl in *; try discriminate;
    (eexists _, _, _; split; [in_log | split; reflexivity]).
Qed.

Lemma one_print_per_normal_run_witness :
  result_of (entry_point (L := scripted sc_success) Airbnb
               "/srv/examples/airbnb_use.py") 0%nat = Returned tt
  /\ exists agent n r,
       In (Call (AgentRun agent (task_of Airbnb) n) (Returned (VStr r)))
          (trace_of (entry_point (L := scripted sc_success) Airbnb
                       "/srv/examples/airbnb_use.py") 0%nat)
       /\ printed (trace_of (entry_point (L := scripted sc_success) Airbnb
                               "/srv/examples/airbnb_use.py") 0%nat)
            = [nl +:+ "Result: " +:+ r]
       /\ stdout (trace_of (entry_point (L := scripted sc_success) Airbnb
                              "/srv/examples/airbnb_use.py") 0%nat)
            = (nl +:+ "Result: " +:+ r) +:+ nl.
Proof.
  split; [reflexivity|].
  apply (one_print_per_normal_run nat (scripted sc_success) 0%nat Airbnb
           "/srv/examples/airbnb_use.py").
  reflexivity.
Defined.

(** C6, as stated, fails: the agent returns a text of two lines, the
    browser script ends normally, and standard output holds three lines, an
    empty one and the two of the result. *)
Lemma result_text_spans_several_lines :
  result_of (entry_point (L := scripted sc_two_lines) Browser
               "/srv/examples/browser_use.py") 0%nat = Returned tt
  /\ lines (stdout (trace_of (entry_point (L := scripted sc_two_lines) Browser
                                "/srv/examples/browser_use.py") 0%nat))
       = [""; "Result: Option 1"; "Option 2"]
  /\ length (lines (stdout (trace_of (entry_point (L := scripted sc_two_lines) Browser
                                        "/srv/examples/browser_use.py") 0%nat)))
       <> 1%nat.
Proof.
  split; [reflexivity|]. split; [reflexivity|]. vm_compute. discriminate.
Qed.

(** Even an answer of one line comes after an empty line. *)
Lemma one_line_result_after_empty_line :
  lines (stdout (trace_of (entry_point (L := scripted sc_success) Everything "")
                   0%nat))
    = [""; "Result: 3 places found"].
Proof. reflexivity. Qed.

(** * Conditional logic *)



(** Hence the Airbnb script is not straight-line. *)
Lemma airbnb_not_straight_line file__ :
  ~ straight_line (fun W L => airbnb_use.run_airbnb_example file__).
Proof.
  intros [ops Hops].
  pose proof (Hops nat (scripted sc_success) 0%nat eq_refl) as H1.
  pose proof (Hops nat (scripted sc_no_session) 0%nat eq_refl) as H2.
  rewrite <- H2 in H1. vm_compute in H1. discriminate H1.
Qed.

(** * Paths *)

Lemma append_cons (c : ascii) (s t : string) : String c s +:+ t = String c (s +:+ t).
Proof. reflexivity. Qed.

Section Posixpath.
Import posixpath.

Lemma has_sep_append (a b : string) : has_sep (a +:+ b) = has_sep a || has_sep b.
Proof.
  induction a as [|x a IH]; [reflexivity|].
  rewrite append_cons. simpl. rewrite IH. by rewrite orb_assoc.
Qed.

Lemma head_of_no_sep (p : string) : has_sep p = false -> head_of p = "".
Proof.
  destruct p as [|c p]; [reflexivity|]. simpl. by intros ->.
Qed.

(** The text up to the last slash of [dir/base] is [dir/]. *)
Lemma head_of_dir_base (dir base : string) :
  has_sep base = false -> head_of (dir +:+ "/" +:+ base) = dir +:+ "/".
Proof.
  intros Hbase. induction dir as [|c dir IH].
  - change ("" +:+ "/" +:+ base) with (String "/" base).
    simpl. by rewrite (head_of_no_sep base Hbase).
  - rewrite (append_cons c dir). simpl. rewrite IH.
    rewrite has_sep_append. simpl. by rewrite !orb_true_r.
Qed.

Lemma all_sep_dir_sep (dir : string) : all_sep (dir +:+ "/") = all_sep dir.
Proof.
  induction dir as [|c dir IH]; [reflexivity|].
  rewrite append_cons. simpl. by rewrite IH.
Qed.

Lemma rstrip_sep_dir_sep (dir : string) : rstrip_sep (dir +:+ "/") = rstrip_sep dir.
Proof.
  induction dir as [|c dir IH]; [reflexivity|].
  rewrite append_cons. simpl. by rewrite IH.
Qed.


Lemma endswith_sep_dir_sep (dir : string) : endswith_sep (dir +:+ "/") = true.
Proof.
  induction dir as [|c dir IH]; [reflexivity|].
  rewrite append_cons. destruct dir as [|c' dir]; [reflexivity|].
  rewrite append_cons in *. exact IH.
Qed.




End Posixpath.

Example dirname_absolute :
  posixpath.dirname "/srv/examples/airbnb_use.py" = "/srv/examples".
Proof. reflexivity. Qed.

Example dirname_root : posixpath.dirname "/airbnb_use.py" = "/".
Proof. reflexivity. Qed.

Example dirname_bare : posixpath.dirname "airbnb_use.py" = "".
Proof. reflexivity. Qed.

Example join_bare : posixpath.join "" "airbnb_mcp.json" = "airbnb_mcp.json".
Proof. reflexivity. Qed.

(** The path a script hands to [from_config_file]. *)
Lemma config_path_is_join W (L : Library W) (w : W) s file__ path r :
  In (Call (FromConfigFile path) r) (trace_of (entry_point s file__) w) ->
  exists name,
    config_name s = Some name
    /\ posixpath.startswith_sep name = false
    /\ path = posixpath.join (posixpath.dirname file__) name.
Proof.
  intros Hin.
  destruct s; unfold entry_point in Hin; exec; log_cases Hin;
    try discriminate Hin; injection Hin as <- _;
    eexists; (split; [reflexivity | split; reflexivity]).
Qed.



(** The same path in two worlds, whatever they are. *)
Lemma config_path_same_in_every_world W1 (L1 : Library W1) (w1 : W1)
    W2 (L2 : Library W2) (w2 : W2) s file__ p1 r1 p2 r2 :
  In (Call (FromConfigFile p1) r1) (trace_of (entry_point (L := L1) s file__) w1) ->
  In (Call (FromConfigFile p2) r2) (trace_of (entry_point (L := L2) s file__) w2) ->
  p1 = p2.
Proof.
  intros H1 H2.
  destruct (config_path_is_join _ _ _ _ _ _ _ H1) as (n1 & Hn1 & _ & ->).
  destruct (config_path_is_join _ _ _ _ _ _ _ H2) as (n2 & Hn2 & _ & ->).
  congruence.
Qed.
(** * Beyond the teardown: what the other paths do *)

(** Symbolic execution of the one run a goal is about: the run is named,
    executed once, and its outcome and log are put back in the goal. *)
Ltac name_run :=
  unfold trace_of, result_of in *;
  let go m w :=
    let rs := fresh "rs" in
    let Hrun := fresh "Hrun" in
    remember (run m w) as rs eqn:Hrun in *;
    destruct rs as [? [? ?]]; cbn [fst snd trace world] in *;
    symmetry in Hrun in
  match goal with
  | |- context [run ?m ?w] => go m w
  | H : context [run ?m ?w] |- _ => go m w
  end.

Ltac exec_all :=
  name_run;
  match goal with
  | Hrun : run _ _ = _ |- _ =>
      unfold entry_point, module_of in Hrun; unfold_scripts; simpl in Hrun;
      repeat (match type of Hrun with
              | context [match ?x with _ => _ end] => scrutinee x
              end; simpl in Hrun);
      injection Hrun as ? ? ?; subst;
      repeat match goal with o : outcome _ |- _ => destruct o end;
      simpl in *
  end.

(** The call of a log entry that raised. *)
Ltac raised_entry H :=
  log_cases H; try discriminate H; injection H as ? ?; subst; simpl in *.

(** A goal about a subsequence of a list of distinct operations. *)
Ltac in_order :=
  solve [ simpl; repeat first [ apply sublist_nil | apply sublist_skip | apply sublist_cons ] ].

(** X1.  The browser script and the "everything" script never read
    [client.sessions] and never call [close_all_sessions]: they leave the
    sessions their agent opened as they are, however the run ends. *)
Theorem no_cleanup_outside_airbnb W (L : Library W) (w : W) file__ :
  Forall (fun ev => is_cleanup_op (op_of_event ev) = false)
    (trace_of (browser_use.main file__) w)
  /\ Forall (fun ev => is_cleanup_op (op_of_event ev) = false)
       (trace_of mcp_everything.main w).
Proof.
  split; exec; repeat constructor.
Qed.

(** X2.  In the Airbnb script a failure before the [try] statement (of
    [load_dotenv], of the client, model or agent constructor) leaves the
    script as it is raised and no cleanup is made: the sessions are neither
    read nor closed, also when the client was already built. *)
Theorem airbnb_setup_failure_skips_cleanup W (L : Library W) (w : W) file__ c e :
  In (Call c (Raised e)) (trace_of (airbnb_use.run_airbnb_example file__) w) ->
  is_setup_op (op_of_call c) = true ->
  result_of (airbnb_use.run_airbnb_example file__) w = Raised e
  /\ Forall (fun ev => is_cleanup_op (op_of_event ev) = false)
       (trace_of (airbnb_use.run_airbnb_example file__) w).
Proof.
  intros Hin Hop. exec_all; raised_entry Hin; try discriminate Hop;
    (split; [reflexivity | repeat constructor]).
Qed.

Lemma airbnb_setup_failure_skips_cleanup_witness :
  (In (Call (NewMCPAgent (Obj 1) (Obj 0) 10 (Some true)) (Raised ValidationError))
      (trace_of (airbnb_use.run_airbnb_example (L := failing OpNewMCPAgent ValidationError)
                   "/srv/examples/airbnb_use.py") 0%nat)
   /\ is_setup_op (op_of_call (NewMCPAgent (Obj 1) (Obj 0) 10 (Some true))) = true)
  /\ (result_of (airbnb_use.run_airbnb_example (L := failing OpNewMCPAgent ValidationError)
                   "/srv/examples/airbnb_use.py") 0%nat = Raised ValidationError
      /\ Forall (fun ev => is_cleanup_op (op_of_event ev) = false)
           (trace_of (airbnb_use.run_airbnb_example (L := failing OpNewMCPAgent ValidationError)
                        "/srv/examples/airbnb_use.py") 0%nat)).
Proof.
  assert (Hin : In (Call (NewMCPAgent (Obj 1) (Obj 0) 10 (Some true))
                      (Raised ValidationError))
                   (trace_of (airbnb_use.run_airbnb_example
                                (L := failing OpNewMCPAgent ValidationError)
                                "/srv/examples/airbnb_use.py") 0%nat)).
  { in_run. }
  split; [split; [exact Hin | reflexivity] |].
  exact (airbnb_setup_failure_skips_cleanup nat (failing OpNewMCPAgent ValidationError)
           0%nat "/srv/examples/airbnb_use.py" _ _ Hin eq_refl).
Defined.

(** X3.  The browser script and the "everything" script stop at the first
    call that raises: that call is the last entry of the log and its
    exception is the outcome of the entry point. *)
Theorem first_failure_ends_script W (L : Library W) (w : W) s file__ c e :
  s <> Airbnb ->
  In (Call c (Raised e)) (trace_of (entry_point s file__) w) ->
  result_of (entry_point s file__) w = Raised e
  /\ last (trace_of (entry_point s file__) w) = Some (Call c (Raised e)).
Proof.
  intros Hs Hin. destruct s; [congruence| |];
    unfold entry_point in *; exec_all; raised_entry Hin; split; reflexivity.
Qed.

Lemma first_failure_ends_script_witness :
  (Browser <> Airbnb
   /\ In (Call (AgentRun (Obj 2) browser_use.query 30) (Raised ConnectionError))
        (trace_of (entry_point (L := failing OpAgentRun ConnectionError) Browser
                     "/srv/examples/browser_use.py") 0%nat))
  /\ (result_of (entry_point (L := failing OpAgentRun ConnectionError) Browser
                   "/srv/examples/browser_use.py") 0%nat = Raised ConnectionError
      /\ last (trace_of (entry_point (L := failing OpAgentRun ConnectionError) Browser
                           "/srv/examples/browser_use.py") 0%nat)
           = Some (Call (AgentRun (Obj 2) browser_use.query 30) (Raised ConnectionError))).
Proof.
  assert (Hs : Browser <> Airbnb) by discriminate.
  assert (Hin : In (Call (AgentRun (Obj 2) browser_use.query 30) (Raised ConnectionError))
                   (trace_of (entry_point (L := failing OpAgentRun ConnectionError) Browser
                                "/srv/examples/browser_use.py") 0%nat)).
  { in_run. }
  split; [split; [exact Hs | exact Hin] |].
  exact (first_failure_ends_script nat (failing OpAgentRun ConnectionError) 0%nat
           Browser "/srv/examples/browser_use.py" _ _ Hs Hin).
Defined.

(** X4.  In the Airbnb script a failure inside the [finally] block (of the
    reading of [client.sessions] or of [close_all_sessions]) is the outcome
    of the entry point, whatever the [try] body did, and nothing is done
    after it. *)
Theorem airbnb_cleanup_failure_wins W (L : Library W) (w : W) file__ c e :
  In (Call c (Raised e)) (trace_of (airbnb_use.run_airbnb_example file__) w) ->
  is_cleanup_op (op_of_call c) = true ->
  result_of (airbnb_use.run_airbnb_example file__) w = Raised e
  /\ last (trace_of (airbnb_use.run_airbnb_example file__) w)
       = Some (Call c (Raised e)).
Proof.
  intros Hin Hop. exec_all; raised_entry Hin; try discriminate Hop;
    split; reflexivity.
Qed.

Lemma airbnb_cleanup_failure_wins_witness :
  (In (Call (GetSessions (Obj 0)) (Raised RuntimeError))
      (trace_of (airbnb_use.run_airbnb_example (L := failing OpGetSessions RuntimeError)
                   "/srv/examples/airbnb_use.py") 0%nat)
   /\ is_cleanup_op (op_of_call (GetSessions (Obj 0))) = true)
  /\ (result_of (airbnb_use.run_airbnb_example (L := failing OpGetSessions RuntimeError)
                   "/srv/examples/airbnb_use.py") 0%nat = Raised RuntimeError
      /\ last (trace_of (airbnb_use.run_airbnb_example (L := failing OpGetSessions RuntimeError)
                           "/srv/examples/airbnb_use.py") 0%nat)
           = Some (Call (GetSessions (Obj 0)) (Raised RuntimeError))).
Proof.
  assert (Hin : In (Call (GetSessions (Obj 0)) (Raised RuntimeError))
                   (trace_of (airbnb_use.run_airbnb_example
                                (L := failing OpGetSessions RuntimeError)
                                "/srv/examples/airbnb_use.py") 0%nat)).
  { in_run. }
  split; [split; [exact Hin | reflexivity] |].
  exact (airbnb_cleanup_failure_wins nat (failing OpGetSessions RuntimeError) 0%nat
           "/srv/examples/airbnb_use.py" _ _ Hin eq_refl).
Defined.

(** X5.  In the Airbnb script a failure of [print] is treated as a failure
    of the agent's run is: the [finally] block runs after it, and when that
    block ends without raising, the exception of [print] is the outcome of
    the entry point. *)
Theorem airbnb_print_failure_propagates W (L : Library W) (w : W) file__
    pre post text e :
  trace_of (airbnb_use.run_airbnb_example file__) w
    = pre ++ Call (PrintText text) (Raised e) :: post ->
  cleanup_returned post ->
  result_of (airbnb_use.run_airbnb_example file__) w = Raised e
  /\ exists client r', In (Call (GetSessions client) r') post.
Proof.
  intros Htr Hcl. unfold cleanup_returned in Hcl.
  exec_all; split_at Htr pre; (split; [| eexists _, _; in_log]).
  all: try reflexivity.
  all: exfalso.
  all: match goal with
       | H : forall c e, _ -> _ |- False =>
           first [ destruct (H (CloseAllSessions _) _ ltac:(in_log)) as [_ Hn];
                   exact (Hn eq_refl)
                 | destruct (H (GetSessions _) _ ltac:(in_log)) as [Hn _];
                   exact (Hn eq_refl) ]
       end.
Qed.

Lemma airbnb_print_failure_propagates_witness :
  (trace_of (airbnb_use.run_airbnb_example (L := failing OpPrint BrokenPipeError)
               "/srv/examples/airbnb_use.py") 0%nat
     = (airbnb_setup_log
        ++ [Call (AgentRun (Obj 2) airbnb_use.query 30) (Returned (VStr "3 places found"))])
       ++ Call (PrintText (nl +:+ "Result: 3 places found")) (Raised BrokenPipeError)
       :: airbnb_cleanup_log
   /\ cleanup_returned airbnb_cleanup_log)
  /\ (result_of (airbnb_use.run_airbnb_example (L := failing OpPrint BrokenPipeError)
                   "/srv/examples/airbnb_use.py") 0%nat = Raised BrokenPipeError
      /\ exists client r', In (Call (GetSessions client) r') airbnb_cleanup_log).
Proof.
  assert (Hcl : cleanup_returned airbnb_cleanup_log).
  { intros c e [Hin|[Hin|[]]]; discriminate Hin. }
  split; [split; [reflexivity | exact Hcl] |].
  apply (airbnb_print_failure_propagates nat (failing OpPrint BrokenPipeError) 0%nat
           "/srv/examples/airbnb_use.py"
           (airbnb_setup_log
            ++ [Call (AgentRun (Obj 2) airbnb_use.query 30)
                  (Returned (VStr "3 places found"))])
           airbnb_cleanup_log (nl +:+ "Result: 3 places found") BrokenPipeError);
    [reflexivity | exact Hcl].
Defined.

(** X6.  No script swallows a failure: the entry point of each of the
    three scripts ends normally exactly when every call it made returned. *)
Theorem normal_end_iff_all_returned W (L : Library W) (w : W) s file__ :
  result_of (entry_point s file__) w = Returned tt
  <-> all_returned (trace_of (entry_point s file__) w) = true.
Proof.
  destruct s; exec_all;
    repeat match goal with u : unit |- _ => destruct u end;
    split; intros Heq; first [reflexivity | discriminate Heq].
Qed.

(** X7.  A script prints only the answer of an agent's run that returned:
    whatever is printed in a run, failed or not, is the one text made of a
    line feed, ["Result: "] and the text that run returned.  When the
    agent's run raises, nothing is printed. *)
Theorem printed_text_is_agent_result W (L : Library W) (w : W) s file__ text :
  In text (printed (trace_of (entry_point s file__) w)) ->
  exists agent n r,
    In (Call (AgentRun agent (task_of s) n) (Returned (VStr r)))
       (trace_of (entry_point s file__) w)
    /\ text = nl +:+ "Result: " +:+ r
    /\ printed (trace_of (entry_point s file__) w) = [text].
Proof.
  intros Hin.
  destruct s; exec_all; log_cases Hin; subst text;
    (eexists _, _, _; split; [in_log | split; reflexivity]).
Qed.

Lemma printed_text_is_agent_result_witness :
  In (nl +:+ "Result: 3 places found")
     (printed (trace_of (entry_point (L := failing OpCloseAllSessions RuntimeError) Airbnb
                           "/srv/examples/airbnb_use.py") 0%nat))
  /\ exists agent n r,
       In (Call (AgentRun agent (task_of Airbnb) n) (Returned (VStr r)))
          (trace_of (entry_point (L := failing OpCloseAllSessions RuntimeError) Airbnb
                       "/srv/examples/airbnb_use.py") 0%nat)
       /\ nl +:+ "Result: 3 places found" = nl +:+ "Result: " +:+ r
       /\ printed (trace_of (entry_point (L := failing OpCloseAllSessions RuntimeError) Airbnb
                               "/srv/examples/airbnb_use.py") 0%nat)
            = [nl +:+ "Result: 3 places found"].
Proof.
  assert (Hin : In (nl +:+ "Result: 3 places found")
                   (printed (trace_of (entry_point
                                         (L := failing OpCloseAllSessions RuntimeError) Airbnb
                                         "/srv/examples/airbnb_use.py") 0%nat))).
  { in_run. }
  split; [exact Hin|].
  exact (printed_text_is_agent_result nat (failing OpCloseAllSessions RuntimeError) 0%nat
           Airbnb "/srv/examples/airbnb_use.py" _ Hin).
Defined.

(** Nothing is printed in a run whose agent fails. *)
Lemma nothing_printed_when_agent_fails W (L : Library W) (w : W) s file__ agent q n e :
  In (Call (AgentRun agent q n) (Raised e)) (trace_of (entry_point s file__) w) ->
  printed (trace_of (entry_point s file__) w) = [].
Proof.
  intros Hin. destruct s; exec_all; raised_entry Hin; reflexivity.
Qed.

(** * How the objects flow *)

(** X8.  In each script the agent that is run is the one the [MCPAgent]
    constructor returned, and it was built from the model handle that
    [ChatOllama] returned and from the client that the script built
    (from the configuration file, or from the inline mapping). *)
Theorem agent_wiring W (L : Library W) (w : W) s file__ agent q n r :
  In (Call (AgentRun agent q n) r) (trace_of (entry_point s file__) w) ->
  exists llm client steps verbose model url temperature mk,
    In (Call (NewMCPAgent llm client steps verbose) (Returned (VObj agent)))
       (trace_of (entry_point s file__) w)
    /\ In (Call (NewChatOllama model url temperature) (Returned (VObj llm)))
         (trace_of (entry_point s file__) w)
    /\ is_client_op (op_of_call mk) = true
    /\ In (Call mk (Returned (VObj client))) (trace_of (entry_point s file__) w).
Proof.
  intros Hin.
  destruct s; exec_all; log_cases Hin; try discriminate Hin;
    injection Hin as ? ? ? ?; subst;
    (eexists _, _, _, _, _, _, _, _;
     split; [in_log | split; [in_log | split; [| in_log]]]; reflexivity).
Qed.

Lemma agent_wiring_witness :
  In (Call (AgentRun (Obj 2) mcp_everything.query 30) (Returned (VStr "3 places found")))
     (trace_of (entry_point (L := scripted sc_success) Everything "") 0%nat)
  /\ exists llm client steps verbose model url temperature mk,
       In (Call (NewMCPAgent llm client steps verbose) (Returned (VObj (Obj 2))))
          (trace_of (entry_point (L := scripted sc_success) Everything "") 0%nat)
       /\ In (Call (NewChatOllama model url temperature) (Returned (VObj llm)))
            (trace_of (entry_point (L := scripted sc_success) Everything "") 0%nat)
       /\ is_client_op (op_of_call mk) = true
       /\ In (Call mk (Returned (VObj client)))
            (trace_of (entry_point (L := scripted sc_success) Everything "") 0%nat).
Proof.
  assert (Hin : In (Call (AgentRun (Obj 2) mcp_everything.query 30)
                      (Returned (VStr "3 places found")))
                   (trace_of (entry_point (L := scripted sc_success) Everything "")
                      0%nat)).
  { in_run. }
  split; [exact Hin|].
  exact (agent_wiring nat (scripted sc_success) 0%nat Everything "" _ _ _ _ Hin).
Defined.

(** X9.  The Airbnb script reads and closes the sessions of its own
    client: the object of a cleanup call is the client that
    [from_config_file] returned, the one the agent was built on. *)
Theorem airbnb_cleanup_on_own_client W (L : Library W) (w : W) file__ c r :
  In (Call c r) (trace_of (airbnb_use.run_airbnb_example file__) w) ->
  is_cleanup_op (op_of_call c) = true ->
  exists client path llm steps verbose agent,
    (c = GetSessions client \/ c = CloseAllSessions client)
    /\ In (Call (FromConfigFile path) (Returned (VObj client)))
         (trace_of (airbnb_use.run_airbnb_example file__) w)
    /\ In (Call (NewMCPAgent llm client steps verbose) (Returned (VObj agent)))
         (trace_of (airbnb_use.run_airbnb_example file__) w).
Proof.
  intros Hin Hop.
  exec_all; log_cases Hin; try discriminate Hin;
    injection Hin as ? ?; subst; try discriminate Hop;
    (eexists _, _, _, _, _, _;
     split; [first [left; reflexivity | right; reflexivity]
            | split; in_log]).
Qed.

Lemma airbnb_cleanup_on_own_client_witness :
  (In (Call (CloseAllSessions (Obj 0)) (Returned VNone))
      (trace_of (airbnb_use.run_airbnb_example (L := scripted sc_agent_fails)
                   "/srv/examples/airbnb_use.py") 0%nat)
   /\ is_cleanup_op (op_of_call (CloseAllSessions (Obj 0))) = true)
  /\ exists client path llm steps verbose agent,
       (CloseAllSessions (Obj 0) = GetSessions client
        \/ CloseAllSessions (Obj 0) = CloseAllSessions client)
       /\ In (Call (FromConfigFile path) (Returned (VObj client)))
            (trace_of (airbnb_use.run_airbnb_example (L := scripted sc_agent_fails)
                         "/srv/examples/airbnb_use.py") 0%nat)
       /\ In (Call (NewMCPAgent llm client steps verbose) (Returned (VObj agent)))
            (trace_of (airbnb_use.run_airbnb_example (L := scripted sc_agent_fails)
                         "/srv/examples/airbnb_use.py") 0%nat).
Proof.
  assert (Hin : In (Call (CloseAllSessions (Obj 0)) (Returned VNone))
                   (trace_of (airbnb_use.run_airbnb_example (L := scripted sc_agent_fails)
                                "/srv/examples/airbnb_use.py") 0%nat)).
  { in_run. }
  split; [split; [exact Hin | reflexivity] |].
  exact (airbnb_cleanup_on_own_client nat (scripted sc_agent_fails) 0%nat
           "/srv/examples/airbnb_use.py" _ _ Hin eq_refl).
Defined.

(** X10.  In every run of a script, failed or not, the operations made are
    operations of the entry point's source text, in the order of the text,
    each one at most once: no call is repeated and none is made out of
    turn. *)
Theorem operations_in_source_order W (L : Library W) (w : W) s file__ :
  sublist (skeleton (trace_of (entry_point s file__) w)) (source_ops s)
  /\ NoDup (skeleton (trace_of (entry_point s file__) w)).
Proof.
  assert (Hnd : NoDup (source_ops s)).
  { destruct s; simpl;
      repeat (apply NoDup_cons_2;
              [intros Hin; apply list_elem_of_In in Hin; simpl in Hin;
               intuition discriminate |]);
      apply NoDup_nil_2. }
  assert (Hsub : sublist (skeleton (trace_of (entry_point s file__) w)) (source_ops s)).
  { destruct s; exec_all; in_order. }
  split; [exact Hsub | eapply sublist_NoDup; eassumption].
Qed.

(** * The module's top level *)




(** Run as the main program with an agent that fails, the Airbnb module
    ends with the agent's exception after the cleanup. *)
Example airbnb_main_program_fails_with_agent :
  result_of (module_of (L := scripted sc_agent_fails) Airbnb "__main__"
               "/srv/examples/airbnb_use.py") 0%nat = Raised ConnectionError
  /\ trace_of (module_of (L := scripted sc_agent_fails) Airbnb "__main__"
                 "/srv/examples/airbnb_use.py") 0%nat
     = airbnb_import_log
       ++ AsyncioRun "run_airbnb_example"
       :: airbnb_setup_log
       ++ Call (AgentRun (Obj 2) airbnb_use.query 30) (Raised ConnectionError)
       :: airbnb_cleanup_log.
Proof. split; reflexivity. Qed.

(** X12.  An import that fails ends the module's top level at once, also
    when the module runs as the main program: its exception is the
    outcome, the entry point is not started and no call of it is made. *)
Theorem import_failure_stops_module W (L : Library W) (w : W) s name__ file__ m e :
  In (Call (ImportModule m) (Raised e)) (trace_of (module_of s name__ file__) w) ->
  result_of (module_of s name__ file__) w = Raised e
  /\ last (trace_of (module_of s name__ file__) w) = Some (Call (ImportModule m) (Raised e))
  /\ Forall (fun ev => op_of_event ev = OpImport) (trace_of (module_of s name__ file__) w).
Proof.
  intros Hin.
  destruct s; exec_all; raised_entry Hin;
    (split; [reflexivity | split; [reflexivity | repeat constructor]]).
Qed.

Lemma import_failure_stops_module_witness :
  In (Call (ImportModule "asyncio") (Raised ImportError))
     (trace_of (module_of (L := failing OpImport ImportError) Everything "__main__" "")
        0%nat)
  /\ (result_of (module_of (L := failing OpImport ImportError) Everything "__main__" "")
        0%nat = Raised ImportError
      /\ last (trace_of (module_of (L := failing OpImport ImportError) Everything
                           "__main__" "") 0%nat)
           = Some (Call (ImportModule "asyncio") (Raised ImportError))
      /\ Forall (fun ev => op_of_event ev = OpImport)
           (trace_of (module_of (L := failing OpImport ImportError) Everything
                        "__main__" "") 0%nat)).
Proof.
  assert (Hin : In (Call (ImportModule "asyncio") (Raised ImportError))
                   (trace_of (module_of (L := failing OpImport ImportError) Everything
                                "__main__" "") 0%nat)).
  { in_run. }
  split; [exact Hin|].
  exact (import_failure_stops_module nat (failing OpImport ImportError) 0%nat
           Everything "__main__" "" _ _ Hin).
Defined.

(** * Paths: the other shapes of [__file__] *)

Section MorePaths.
Import posixpath.

Lemma rstrip_sep_empty_iff (p : string) : rstrip_sep p = "" <-> all_sep p = true.
Proof.
  induction p as [|c p IH]; [done|].
  simpl. destruct (rstrip_sep p) as [|c' r].
  - destruct (is_sep c); simpl; [tauto|]. split; discriminate.
  - split; [discriminate|]. intros [_ Hall]%andb_true_iff.
    apply IH in Hall. discriminate Hall.
Qed.

(** What is left of a text after its trailing slashes are cut starts as
    the text does. *)
Lemma rstrip_sep_first (c : ascii) (p : string) :
  all_sep (String c p) = false -> exists r, rstrip_sep (String c p) = String c r.
Proof.
  intros Hall.
  destruct (rstrip_sep (String c p)) as [|c' r] eqn:Hr.
  - apply rstrip_sep_empty_iff in Hr. congruence.
  - revert Hr. simpl. destruct (rstrip_sep p); [destruct (is_sep c)|];
      intros Hr; simplify_eq; eauto.
Qed.

Lemma endswith_sep_rstrip (p : string) : endswith_sep (rstrip_sep p) = false.
Proof.
  induction p as [|c p IH]; [reflexivity|].
  simpl. destruct (rstrip_sep p) as [|c' r] eqn:Hr.
  - destruct (is_sep c) eqn:Hc; [reflexivity | simpl; exact Hc].
  - exact IH.
Qed.

(** The directory of an absolute path is absolute. *)
Lemma dirname_absolute_path (p : string) :
  startswith_sep p = true -> startswith_sep (dirname p) = true.
Proof.
  destruct p as [|c p]; [discriminate|]. simpl. intros Hc.
  assert (Hh : head_of (String c p) = String c (head_of p)).
  { simpl. by rewrite Hc. }
  unfold dirname. rewrite Hh.
  destruct (all_sep (String c (head_of p))) eqn:Hall.
  - rewrite andb_false_r. exact Hc.
  - destruct (rstrip_sep_first c (head_of p) Hall) as [r Hr].
    rewrite Hr. exact Hc.
Qed.

Lemma join_absolute_dir (a b : string) :
  startswith_sep a = true -> startswith_sep (join a b) = true.
Proof.
  intros Ha. unfold join. destruct (startswith_sep b) eqn:Hb; [exact Hb|].
  destruct a as [|c a]; [discriminate|].
  destruct (_ || _); exact Ha.
Qed.

Lemma dirname_without_sep (p : string) : has_sep p = false -> dirname p = "".
Proof.
  intros Hp. unfold dirname. by rewrite (head_of_no_sep p Hp).
Qed.

(** The directory of [dir/base] when [dir] ends in slashes of its own:
    they are cut. *)
Lemma dirname_cuts_slashes (dir base : string) :
  has_sep base = false -> all_sep dir = false ->
  dirname (dir +:+ "/" +:+ base) = rstrip_sep dir.
Proof.
  intros Hbase Hall. unfold dirname. rewrite (head_of_dir_base _ _ Hbase).
  rewrite all_sep_dir_sep, Hall.
  replace (dir +:+ "/" =? "")%string with false by (by destruct dir).
  simpl. apply rstrip_sep_dir_sep.
Qed.

End MorePaths.

(** X13.  When [__file__] has no directory part (it holds no slash), the
    Airbnb and browser scripts hand the bare name of the configuration
    file to [from_config_file]: a relative path. *)
Theorem config_path_for_bare_file W (L : Library W) (w : W) s file__ path r :
  In (Call (FromConfigFile path) r) (trace_of (entry_point s file__) w) ->
  posixpath.has_sep file__ = false ->
  config_name s = Some path /\ posixpath.startswith_sep path = false.
Proof.
  intros Hin Hfile.
  destruct (config_path_is_join W L w s file__ path r Hin)
    as (name & Hname & Hstart & ->).
  rewrite (dirname_without_sep file__ Hfile).
  unfold posixpath.join. rewrite Hstart. simpl. by split.
Qed.

Lemma config_path_for_bare_file_witness :
  (In (Call (FromConfigFile "browser_mcp.json") (Returned (VObj (Obj 0))))
      (trace_of (entry_point (L := scripted sc_success) Browser "browser_use.py") 0%nat)
   /\ posixpath.has_sep "browser_use.py" = false)
  /\ (config_name Browser = Some "browser_mcp.json"
      /\ posixpath.startswith_sep "browser_mcp.json" = false).
Proof.
  assert (Hin : In (Call (FromConfigFile "browser_mcp.json") (Returned (VObj (Obj 0))))
                   (trace_of (entry_point (L := scripted sc_success) Browser
                                "browser_use.py") 0%nat)).
  { in_run. }
  split; [split; [exact Hin | reflexivity] |].
  exact (config_path_for_bare_file nat (scripted sc_success) 0%nat Browser
           "browser_use.py" _ _ Hin eq_refl).
Defined.

(** X14.  When [__file__] is an absolute path, so is the path the Airbnb
    and browser scripts hand to [from_config_file]. *)
Theorem config_path_absolute W (L : Library W) (w : W) s file__ path r :
  In (Call (FromConfigFile path) r) (trace_of (entry_point s file__) w) ->
  posixpath.startswith_sep file__ = true ->
  posixpath.startswith_sep path = true.
Proof.
  intros Hin Hfile.
  destruct (config_path_is_join W L w s file__ path r Hin)
    as (name & Hname & Hstart & ->).
  by apply join_absolute_dir, dirname_absolute_path.
Qed.

Lemma config_path_absolute_witness :
  (In (Call (FromConfigFile "/airbnb_mcp.json") (Returned (VObj (Obj 0))))
      (trace_of (entry_point (L := scripted sc_success) Airbnb "/airbnb_use.py") 0%nat)
   /\ posixpath.startswith_sep "/airbnb_use.py" = true)
  /\ posixpath.startswith_sep "/airbnb_mcp.json" = true.
Proof.
  assert (Hin : In (Call (FromConfigFile "/airbnb_mcp.json") (Returned (VObj (Obj 0))))
                   (trace_of (entry_point (L := scripted sc_success) Airbnb
                                "/airbnb_use.py") 0%nat)).
  { in_run. }
  split; [split; [exact Hin | reflexivity] |].
  exact (config_path_absolute nat (scripted sc_success) 0%nat Airbnb
           "/airbnb_use.py" _ _ Hin eq_refl).
Defined.

(** X15.  For a script at [dir/base] whose [dir] ends in slashes of its
    own (as in [examples//airbnb_use.py]), the path handed to
    [from_config_file] has them cut: it is [dir] without its trailing
    slashes, a slash and the file's name. *)
Theorem config_path_cuts_slashes W (L : Library W) (w : W) s dir base path r :
  In (Call (FromConfigFile path) r)
     (trace_of (entry_point s (dir +:+ "/" +:+ base)) w) ->
  posixpath.has_sep base = false ->
  posixpath.all_sep dir = false ->
  exists name,
    config_name s = Some name
    /\ path = posixpath.rstrip_sep dir +:+ "/" +:+ name
    /\ posixpath.endswith_sep (posixpath.rstrip_sep dir) = false.
Proof.
  intros Hin Hbase Hall.
  destruct (config_path_is_join W L w s _ path r Hin)
    as (name & Hname & Hstart & ->).
  exists name. split; [exact Hname|]. split; [|apply endswith_sep_rstrip].
  rewrite (dirname_cuts_slashes dir base Hbase Hall).
  unfold posixpath.join. rewrite Hstart, endswith_sep_rstrip.
  destruct (posixpath.rstrip_sep dir) eqn:Hr; [|reflexivity].
  apply rstrip_sep_empty_iff in Hr. congruence.
Qed.

Lemma config_path_cuts_slashes_witness :
  (In (Call (FromConfigFile "examples/airbnb_mcp.json") (Returned (VObj (Obj 0))))
      (trace_of (entry_point (L := scripted sc_success) Airbnb
                   ("examples/" +:+ "/" +:+ "airbnb_use.py")) 0%nat)
   /\ posixpath.has_sep "airbnb_use.py" = false
   /\ posixpath.all_sep "examples/" = false)
  /\ exists name,
       config_name Airbnb = Some name
       /\ "examples/airbnb_mcp.json" = posixpath.rstrip_sep "examples/" +:+ "/" +:+ name
       /\ posixpath.endswith_sep (posixpath.rstrip_sep "examples/") = false.
Proof.
  assert (Hin : In (Call (FromConfigFile "examples/airbnb_mcp.json")
                      (Returned (VObj (Obj 0))))
                   (trace_of (entry_point (L := scripted sc_success) Airbnb
                                ("examples/" +:+ "/" +:+ "airbnb_use.py")) 0%nat)).
  { in_run. }
  split; [split; [exact Hin | split; reflexivity] |].
  exact (config_path_cuts_slashes nat (scripted sc_success) 0%nat Airbnb
           "examples/" "airbnb_use.py" _ _ Hin eq_refl eq_refl).
Defined.

(** * The environment file *)

(** X16.  What [load_dotenv] returns is not looked at: when it returns,
    with [True] or with [False] (no [.env] file was found), the script goes
    on and builds its client. *)
Theorem dotenv_result_ignored W (L : Library W) (w : W) s file__ found :
  In (Call LoadDotenv (Returned (VBool found))) (trace_of (entry_point s file__) w) ->
  exists mk r,
    is_client_op (op_of_call mk) = true
    /\ In (Call mk r) (trace_of (entry_point s file__) w).
Proof.
  intros Hin.
  destruct s; exec_all; log_cases Hin; try discriminate Hin;
    first [ eexists (FromConfigFile _), _; split; [reflexivity | in_log]
          | eexists (NewMCPClient _), _; split; [reflexivity | in_log] ].
Qed.

Lemma dotenv_result_ignored_witness :
  In (Call LoadDotenv (Returned (VBool false)))
     (trace_of (entry_point (L := without_dotenv) Browser
                  "/srv/examples/browser_use.py") 0%nat)
  /\ exists mk r,
       is_client_op (op_of_call mk) = true
       /\ In (Call mk r)
            (trace_of (entry_point (L := without_dotenv) Browser
                         "/srv/examples/browser_use.py") 0%nat).
Proof.
  assert (Hin : In (Call LoadDotenv (Returned (VBool false)))
                   (trace_of (entry_point (L := without_dotenv) Browser
                                "/srv/examples/browser_use.py") 0%nat)).
  { in_run. }
  split; [exact Hin|].
  exact (dotenv_result_ignored nat without_dotenv 0%nat Browser
           "/srv/examples/browser_use.py" false Hin).
Defined.

(** Without a [.env] file the browser script runs to its end. *)
Example browser_runs_without_dotenv :
  result_of (entry_point (L := without_dotenv) Browser
               "/srv/examples/browser_use.py") 0%nat = Returned tt
  /\ skeleton (trace_of (entry_point (L := without_dotenv) Browser
                           "/srv/examples/browser_use.py") 0%nat)
     = source_ops Browser.
Proof. split; reflexivity. Qed.
